(** * probleme_2.ipynb: the QAOA side-quest notebook

    The repository's source is one Jupyter notebook,
    [side_quests/qaoa/probleme_2.ipynb].  The development embeds the
    notebook as the JSON document it is, reads it with the accessors of the
    notebook format (cells, cell_type, source, execution_count, outputs,
    metadata, nbformat), and states the properties of its cells over the
    result. *)

From Stdlib Require Import ZArith List Bool Ascii String.
Import ListNotations.
Open Scope string_scope.

(** ** Characters and text *)

Module Text.

(** The two characters a string literal cannot hold directly. *)
Definition dq : ascii := "034"%char.
Definition lf : ascii := "010"%char.

Definition nl : string := String lf EmptyString.
Definition quoted (s : string) : string :=
  String dq s ++ String dq EmptyString.

Fixpoint drop (n : nat) (s : string) : string :=
  match n, s with
  | O, _ => s
  | S _, EmptyString => EmptyString
  | S k, String _ r => drop k r
  end.

(** [contains sub s]: [sub] occurs in [s]. *)
Fixpoint contains (sub s : string) : bool :=
  match s with
  | EmptyString => prefix sub s
  | String _ r => prefix sub s || contains sub r
  end.

(** The text up to (and without) the first occurrence of [stop]. *)
Fixpoint take_until (stop : ascii) (s : string) : string :=
  match s with
  | EmptyString => EmptyString
  | String c r =>
      if Ascii.eqb c stop then EmptyString else String c (take_until stop r)
  end.

(** Every piece of text that follows an occurrence of [key], each read up
    to the next [stop] character. *)
Fixpoint values_after (key : string) (stop : ascii) (s : string)
  : list string :=
  match s with
  | EmptyString => []
  | String _ r =>
      (if prefix key s
       then [take_until stop (drop (length key) s)]
       else [])
      ++ values_after key stop r
  end.

(** Lines of a text, split at line feeds the way [str.splitlines] does for
    text whose only line terminator is the line feed: a final line feed
    ends the last line and opens no new one. *)
Fixpoint lines_from (cur : string) (s : string) : list string :=
  match s with
  | EmptyString =>
      match cur with EmptyString => [] | _ => [cur] end
  | String c r =>
      if Ascii.eqb c lf then cur :: lines_from EmptyString r
      else lines_from (cur ++ String c EmptyString) r
  end.

Definition lines (s : string) : list string := lines_from EmptyString s.

Definition is_space (c : ascii) : bool :=
  Ascii.eqb c " "%char || Ascii.eqb c "009"%char || Ascii.eqb c "012"%char
  || Ascii.eqb c "013"%char.

Fixpoint lstrip (s : string) : string :=
  match s with
  | String c r => if is_space c then lstrip r else s
  | EmptyString => EmptyString
  end.

Definition starts_with (c : ascii) (s : string) : bool :=
  match s with
  | String d _ => Ascii.eqb c d
  | EmptyString => false
  end.

Definition is_empty (s : string) : bool :=
  match s with EmptyString => true | _ => false end.

End Text.

(** ** JSON documents *)

#[local] Unset Elimination Schemes.

Inductive json : Type :=
| JNull
| JNum (n : Z)
| JStr (s : string)
| JArr (items : list json)
| JObj (fields : list (string * json)).

#[local] Set Elimination Schemes.

Module Json.

Fixpoint assoc (k : string) (fs : list (string * json)) : option json :=
  match fs with
  | [] => None
  | (k', v) :: rest => if String.eqb k k' then Some v else assoc k rest
  end.

(** [field k j]: the member [k] of the object [j]. *)
Definition field (k : string) (j : json) : option json :=
  match j with
  | JObj fs => assoc k fs
  | _ => None
  end.

Definition as_string (j : json) : option string :=
  match j with JStr s => Some s | _ => None end.

Definition as_array (j : json) : option (list json) :=
  match j with JArr l => Some l | _ => None end.

Definition as_num (j : json) : option Z :=
  match j with JNum n => Some n | _ => None end.

(** [None] inside the list makes the whole result [None]. *)
Fixpoint sequence {A : Type} (l : list (option A)) : option (list A) :=
  match l with
  | [] => Some []
  | None :: _ => None
  | Some a :: rest =>
      match sequence rest with
      | Some r => Some (a :: r)
      | None => None
      end
  end.

Definition keys (j : json) : list string :=
  match j with
  | JObj fs => map fst fs
  | _ => []
  end.

End Json.

(** ** The notebook file *)

Module Source.

Import Text.

(** Path of the notebook inside the repository, and the repository's
    source tree: that one file. *)
Definition notebook_path : string := "side_quests/qaoa/probleme_2.ipynb".

Definition repository_files : list string := [notebook_path].

(** A source line of a cell that ends in a line feed. *)
Definition ln (s : string) : json := JStr (s ++ nl).

Definition markdown_source : list json :=
  [ ln "# Problem 2 : Partitionning the Bus Fleet";
    ln EmptyString;
    ln "In part 1, you were able to solve the simple MaxCut problem. Let's spice things up a bit by taking more information into account!";
    ln EmptyString;
    ln "## Problem Statement";
    ln "> The STS wishes to add 5 buses each serving a different line, to accomodate the growing need felt by users for the morning departures of 08:00 am and 08:30. Given that some bus lines intersect, we want to organize the buses into 2 groups. Ideally, we want the buses serving the same stops to depart at different times as much as possible.";
    ln EmptyString;
    ln "### Supplementary Information";
    ln "In this problem, all bus line intertsections are not equal.";
    ln "An **intersecting weight** is specified, corresponding to the number of common edges between two bus lines. This translates the fact that some bus lines have more stops in common than other and thus, partionning them into different groups takes priority.";
    ln EmptyString;
    ln "The following table summarizes the intersection weights for each bus line (i.e. the number of edges in common between each pair of bus lines):";
    ln EmptyString;
    ln ("<p align=" ++ quoted "center" ++ ">");
    ln ("<img src=" ++ quoted "figures/table_prob2_ENG.png"
        ++ " alt=" ++ quoted "prob2"
        ++ " width=" ++ quoted "500" ++ "/>");
    ln "</p>";
    ln EmptyString;
    ln "**A larger weight** means that two bus lines shares a higher number of edges.";
    ln EmptyString;
    ln "## Goal";
    ln "Your goal is to **minimize the sum of intersection weights** in each departure group. In other words, you want to divide the departure lines sharing many stops.";
    ln EmptyString;
    ln "### How : You need to";
    ln "- encode the problem into a `SparsePauliOp` Hamiltonian";
    ln "- optimize the parameters of your QAOA circuit";
    ln "- select a good set of hyperparameters (number of layers, optimizer, ...)";
    ln EmptyString;
    ln "#### Evaluation : You must";
    ln "- Show a mentor that you were able to run your code correctly (showing cell outputs is sufficient)";
    JStr "- Show the optimal solutions you identified for this problem" ].

Definition markdown_cell : json :=
  JObj [ ("cell_type", JStr "markdown");
         ("metadata", JObj []);
         ("source", JArr markdown_source) ].

Definition code_cell (src : list json) : json :=
  JObj [ ("cell_type", JStr "code");
         ("execution_count", JNull);
         ("metadata", JObj []);
         ("outputs", JArr []);
         ("source", JArr src) ].

Definition notebook_metadata : json :=
  JObj [ ("kernelspec",
          JObj [ ("display_name", JStr "test1_codefest2025_venv");
                 ("language", JStr "python");
                 ("name", JStr "python3") ]);
         ("language_info",
          JObj [ ("codemirror_mode",
                  JObj [ ("name", JStr "ipython");
                         ("version", JNum 3) ]);
                 ("file_extension", JStr ".py");
                 ("mimetype", JStr "text/x-python");
                 ("name", JStr "python");
                 ("nbconvert_exporter", JStr "python");
                 ("pygments_lexer", JStr "ipython3");
                 ("version", JStr "3.12.2") ]) ].

(** The document [probleme_2.ipynb]. *)
Definition probleme_2 : json :=
  JObj [ ("cells",
          JArr [ markdown_cell;
                 code_cell [ JStr "# Instanciate your Hamiltonian" ];
                 code_cell [ JStr "# Instanciate your QAOA circuit" ];
                 code_cell [ JStr "# Hyperparameter optimisation" ];
                 code_cell [ JStr "# Result analysis and identified solutions" ] ]);
         ("metadata", notebook_metadata);
         ("nbformat", JNum 4);
         ("nbformat_minor", JNum 2) ].

End Source.

(** ** Reading a notebook

    The notebook format (nbformat 4) gives the document its shape: a list
    [cells], each cell with a [cell_type] and a [source] (a list of text
    pieces, joined without separator), code cells with [execution_count]
    and [outputs] besides; [metadata.kernelspec] names the kernel; and
    [nbformat], [nbformat_minor] give the version. *)

Module Notebook.

Inductive cell : Type :=
| Markdown (source : list string)
| Code (execution_count : option Z) (outputs : list json)
       (source : list string).

Record notebook : Type := {
  cells : list cell;
  kernel_language : string;
  language_name : string;
  nbformat : Z;
  nbformat_minor : Z
}.

Definition read_source (j : json) : option (list string) :=
  match Json.field "source" j with
  | Some (JArr l) => Json.sequence (map Json.as_string l)
  | Some (JStr s) => Some [s]
  | _ => None
  end.

Definition read_execution_count (j : json) : option (option Z) :=
  match Json.field "execution_count" j with
  | Some JNull => Some None
  | Some (JNum n) => Some (Some n)
  | _ => None
  end.

Definition read_cell (j : json) : option cell :=
  match Json.field "cell_type" j with
  | Some (JStr t) =>
      if String.eqb t "markdown" then
        option_map Markdown (read_source j)
      else if String.eqb t "code" then
        match read_execution_count j, Json.field "outputs" j,
              read_source j with
        | Some ec, Some (JArr outs), Some src => Some (Code ec outs src)
        | _, _, _ => None
        end
      else None
  | _ => None
  end.

Definition read_string_at (path : list string) (j : json) : option string :=
  match fold_left (fun acc k =>
                     match acc with
                     | Some v => Json.field k v
                     | None => None
                     end) path (Some j) with
  | Some v => Json.as_string v
  | None => None
  end.

Definition read (j : json) : option notebook :=
  match Json.field "cells" j with
  | Some (JArr cs) =>
      match Json.sequence (map read_cell cs),
            read_string_at ["metadata"; "kernelspec"; "language"] j,
            read_string_at ["metadata"; "language_info"; "name"] j,
            Json.field "nbformat" j, Json.field "nbformat_minor" j with
      | Some cells, Some kl, Some ln, Some (JNum major), Some (JNum minor) =>
          Some {| cells := cells; kernel_language := kl;
                  language_name := ln;
                  nbformat := major; nbformat_minor := minor |}
      | _, _, _, _, _ => None
      end
  | _ => None
  end.

Definition is_code (c : cell) : bool :=
  match c with Code _ _ _ => true | Markdown _ => false end.

Definition is_markdown (c : cell) : bool := negb (is_code c).

Definition source_of (c : cell) : list string :=
  match c with
  | Markdown src => src
  | Code _ _ src => src
  end.

(** The text of a cell: its source pieces joined. *)
Definition text_of (c : cell) : string :=
  String.concat EmptyString (source_of c).

Definition code_cells (nb : notebook) : list cell :=
  filter is_code (cells nb).

Definition markdown_cells (nb : notebook) : list cell :=
  filter is_markdown (cells nb).

Definition code_texts (nb : notebook) : list string :=
  map text_of (code_cells nb).

Definition markdown_text (nb : notebook) : string :=
  String.concat EmptyString (map text_of (markdown_cells nb)).

(** The label a placeholder cell bears: its text without the leading
    comment sign and the blanks after it. *)
Definition label_of (c : cell) : string :=
  match Text.lstrip (text_of c) with
  | String "#"%char r => Text.lstrip r
  | s => s
  end.

(** The notebook of the repository, as read from its document. *)
Definition loaded : option notebook := read Source.probleme_2.

End Notebook.

(** ** Running code cells

    A code cell's text is Python.  The tokenizer drops every physical line
    that is blank or holds only a comment: such lines yield no statement.
    What remains are the lines that carry statements.  The interpreter below
    covers a small fragment (the [pass] statement, a bare [raise], the
    assignment of a decimal integer literal to a name) and answers
    [Unmodelled] for any other statement; a cell is parsed as a whole before
    any of it runs, and running the cells in order stops at the first that
    does not complete. *)

Module Python.

Import Text.

Definition namespace : Type := list (string * Z).

Inductive outcome : Type :=
| Done (ns : namespace)
| Raised (exc : string) (ns : namespace)
| Unmodelled.

Inductive stmt : Type :=
| SPass
| SRaise
| SAssign (name : string) (value : Z).

Definition is_blank_or_comment (line : string) : bool :=
  let t := lstrip line in
  is_empty t || starts_with "#"%char t.

(** The lines of a cell that carry a statement. *)
Definition logical_lines (src : string) : list string :=
  filter (fun l => negb (is_blank_or_comment l)) (lines src).

Fixpoint words_from (cur : string) (s : string) : list string :=
  let flush := match cur with EmptyString => [] | _ => [cur] end in
  match s with
  | EmptyString => flush
  | String c r =>
      if is_space c then flush ++ words_from EmptyString r
      else words_from (cur ++ String c EmptyString) r
  end.

Definition words (s : string) : list string := words_from EmptyString s.

Definition is_digit (c : ascii) : bool :=
  let n := nat_of_ascii c in (48 <=? n)%nat && (n <=? 57)%nat.

Definition is_letter (c : ascii) : bool :=
  let n := nat_of_ascii c in
  ((65 <=? n)%nat && (n <=? 90)%nat) || ((97 <=? n)%nat && (n <=? 122)%nat)
  || (n =? 95)%nat.

Fixpoint all_chars (p : ascii -> bool) (s : string) : bool :=
  match s with
  | EmptyString => true
  | String c r => p c && all_chars p r
  end.

Definition keywords : list string :=
  [ "False"; "None"; "True"; "and"; "as"; "assert"; "async"; "await";
    "break"; "class"; "continue"; "def"; "del"; "elif"; "else"; "except";
    "finally"; "for"; "from"; "global"; "if"; "import"; "in"; "is";
    "lambda"; "nonlocal"; "not"; "or"; "pass"; "raise"; "return"; "try";
    "while"; "with"; "yield" ].

Definition is_name (s : string) : bool :=
  match s with
  | EmptyString => false
  | String c r =>
      is_letter c && all_chars (fun d => is_letter d || is_digit d) r
      && negb (existsb (String.eqb s) keywords)
  end.

Fixpoint digits_value (acc : Z) (s : string) : Z :=
  match s with
  | EmptyString => acc
  | String c r =>
      digits_value (10 * acc + Z.of_nat (nat_of_ascii c - 48)) r
  end.

(** A decimal integer literal: digits, with no leading zero unless every
    digit is zero. *)
Definition parse_int (s : string) : option Z :=
  match s with
  | EmptyString => None
  | String c _ =>
      if all_chars is_digit s
         && (negb (Ascii.eqb c "0"%char)
             || all_chars (Ascii.eqb "0"%char) s)
      then Some (digits_value 0 s)
      else None
  end.

Definition parse_stmt (line : string) : option stmt :=
  match line with
  | EmptyString => None
  | String c _ =>
      if is_space c then None
      else
        match words (take_until "#"%char line) with
        | [w] =>
            if String.eqb w "pass" then Some SPass
            else if String.eqb w "raise" then Some SRaise
            else None
        | [x; e; v] =>
            if is_name x && String.eqb e "="
            then option_map (SAssign x) (parse_int v)
            else None
        | _ => None
        end
  end.

Definition parse_cell (src : string) : option (list stmt) :=
  Json.sequence (map parse_stmt (logical_lines src)).

Fixpoint bind_name (x : string) (v : Z) (ns : namespace) : namespace :=
  match ns with
  | [] => [(x, v)]
  | (y, w) :: rest =>
      if String.eqb x y then (x, v) :: rest else (y, w) :: bind_name x v rest
  end.

Fixpoint exec_stmts (ns : namespace) (ss : list stmt) : outcome :=
  match ss with
  | [] => Done ns
  | SPass :: rest => exec_stmts ns rest
  | SRaise :: _ => Raised "RuntimeError" ns
  | SAssign x v :: rest => exec_stmts (bind_name x v ns) rest
  end.

Definition exec_cell (ns : namespace) (src : string) : outcome :=
  match parse_cell src with
  | Some ss => exec_stmts ns ss
  | None => Unmodelled
  end.

(** Running cells in order over one namespace. *)
Fixpoint run_cells (ns : namespace) (srcs : list string) : outcome :=
  match srcs with
  | [] => Done ns
  | src :: rest =>
      match exec_cell ns src with
      | Done ns' => run_cells ns' rest
      | other => other
      end
  end.

Definition defined_names (o : outcome) : list string :=
  match o with
  | Done ns => map fst ns
  | Raised _ ns => map fst ns
  | Unmodelled => []
  end.

End Python.

Module PythonExamples.

Import Text Python.

Example assignment_defines_a_name :
  exec_cell [] ("x = 12" ++ nl ++ "# note" ++ nl ++ "y = 0") =
  Done [("x", 12%Z); ("y", 0%Z)].
Proof. reflexivity. Qed.

Example bare_raise_raises :
  run_cells [] ["x = 1"; "raise"; "y = 2"] =
  Raised "RuntimeError" [("x", 1%Z)].
Proof. reflexivity. Qed.

Example other_statements_are_not_modelled :
  exec_cell [] "import qiskit" = Unmodelled.
Proof. reflexivity. Qed.

Example statement_with_comment_is_a_logical_line :
  logical_lines ("  # a" ++ nl ++ nl ++ "pass # b" ++ nl) = ["pass # b"].
Proof. reflexivity. Qed.

End PythonExamples.

(** ** What a notebook holds and refers to *)

Module Content.

Import Text Notebook.

(** The statement-carrying lines of a cell: a markdown cell is prose and
    carries none. *)
Definition statements_of (c : cell) : list string :=
  match c with
  | Markdown _ => []
  | Code _ _ _ => Python.logical_lines (text_of c)
  end.

Definition executable_lines (nb : notebook) : list string :=
  flat_map statements_of (cells nb).

(** A cell that was never run and holds no output. *)
Definition records_nothing (c : cell) : Prop :=
  match c with
  | Markdown _ => True
  | Code ec outs _ => ec = None /\ outs = []
  end.

(** A code cell whose source is one piece, a single line that begins with
    the comment sign. *)
Definition single_comment_line (c : cell) : Prop :=
  match source_of c with
  | [l] => starts_with "#"%char l = true /\ lines l = [l]
  | _ => False
  end.

(** References a text makes to something outside itself: the values of
    [src] and [href] attributes and the targets of markdown links and
    images. *)
Definition references (text : string) : list string :=
  values_after ("src=" ++ String dq EmptyString) dq text
  ++ values_after ("href=" ++ String dq EmptyString) dq text
  ++ values_after "](" ")"%char text.

Definition notebook_references (nb : notebook) : list string :=
  flat_map (fun c => references (text_of c)) (cells nb).

Definition mentions_url (nb : notebook) : bool :=
  existsb (fun c => contains "://" (text_of c)) (cells nb).

(** Directory part of a path: everything before its last slash. *)
Fixpoint dirname (p : string) : string :=
  match p with
  | EmptyString => EmptyString
  | String c r =>
      if contains "/" r then String c (dirname r) else EmptyString
  end.

(** A reference of the notebook, resolved against the notebook's own
    directory. *)
Definition resolve (ref : string) : string :=
  dirname Source.notebook_path ++ "/" ++ ref.

Definition in_repository (p : string) : bool :=
  existsb (String.eqb p) Source.repository_files.

End Content.

(** ** Layout of the document and of the markdown text *)

Module Layout.

Import Text Notebook.

(** The cell objects of a notebook document, as written. *)
Definition raw_cells (j : json) : list json :=
  match Json.field "cells" j with
  | Some (JArr cs) => cs
  | _ => []
  end.

(** The value found by following member names from the document's root. *)
Definition at_path (path : list string) (j : json) : option json :=
  fold_left (fun acc k =>
               match acc with
               | Some v => Json.field k v
               | None => None
               end) path (Some j).

(** No object anywhere in the document writes a member name twice. *)
Fixpoint unique_keys (j : json) : bool :=
  match j with
  | JArr items => forallb unique_keys items
  | JObj fields =>
      (fix members (fs : list (string * json)) : bool :=
         match fs with
         | [] => true
         | (k, v) :: rest =>
             negb (existsb (fun kv => String.eqb k (fst kv)) rest)
             && unique_keys v && members rest
         end) fields
  | _ => true
  end.

(** Lines of a text with their terminators kept, the way
    [str.splitlines(keepends=True)] does for text whose only line terminator
    is the line feed. *)
Fixpoint pieces_from (cur : string) (s : string) : list string :=
  match s with
  | EmptyString =>
      match cur with EmptyString => [] | _ => [cur] end
  | String c r =>
      if Ascii.eqb c lf
      then (cur ++ String c EmptyString) :: pieces_from EmptyString r
      else pieces_from (cur ++ String c EmptyString) r
  end.

Definition split_keepends (s : string) : list string :=
  pieces_from EmptyString s.

(** Pieces joined without separator. *)
Fixpoint join (pieces : list string) : string :=
  match pieces with
  | [] => EmptyString
  | p :: rest => p ++ join rest
  end.

(** The leading number of a dotted version text. *)
Definition major_version (v : string) : option Z :=
  Python.parse_int (take_until "."%char v).

Definition lower_char (c : ascii) : ascii :=
  let n := nat_of_ascii c in
  if ((65 <=? n)%nat && (n <=? 90)%nat)%bool then ascii_of_nat (n + 32) else c.

Fixpoint lower (s : string) : string :=
  match s with
  | EmptyString => EmptyString
  | String c r => String (lower_char c) (lower r)
  end.

(** [mentions term s]: [term] occurs in [s], letter case apart. *)
Definition mentions (term s : string) : bool :=
  contains (lower term) (lower s).

Fixpoint heading_level (line : string) : nat :=
  match line with
  | String "#"%char r => S (heading_level r)
  | _ => O
  end.

(** The markdown headings of a text, each with its level. *)
Definition headings (md : string) : list (nat * string) :=
  map (fun l => (heading_level l, lstrip (drop (heading_level l) l)))
      (filter (starts_with "#"%char) (lines md)).

(** The text of a list item, or [None] for a line that is none. *)
Definition item_of (line : string) : option string :=
  if prefix "- " line then Some (drop 2 line) else None.

(** The list items that follow the heading [title], up to the next heading
    or the end of the text. *)
Fixpoint items_under (title : string) (inside : bool) (ls : list string)
  : list string :=
  match ls with
  | [] => []
  | l :: rest =>
      if starts_with "#"%char l
      then items_under title
             (String.eqb (lstrip (drop (heading_level l) l)) title) rest
      else
        match item_of l with
        | Some it => (if inside then [it] else []) ++
                     items_under title inside rest
        | None => items_under title inside rest
        end
  end.

Definition items_of_section (title md : string) : list string :=
  items_under title false (lines md).

(** For each term, whether it occurs both in the item and in the label at
    its position. *)
Definition shared_terms (terms items labels : list string) : list bool :=
  map (fun x => mentions (fst x) (fst (snd x))
                && mentions (fst x) (snd (snd x)))
      (combine terms (combine items labels)).

(** The texts of the code cells of the repository's notebook. *)
Definition placeholder_texts : list string :=
  match loaded with
  | Some nb => code_texts nb
  | None => []
  end.

(** Every text of [srcs] is one of [pool]. *)
Definition drawn_from (pool srcs : list string) : bool :=
  forallb (fun s => existsb (String.eqb s) pool) srcs.

End Layout.

(** ** General facts about the text and cell functions *)

Module Facts.

Import Text Python.

Lemma prefix_iff_app (p s : string) :
  prefix p s = true <-> exists rest, s = p ++ rest.
Proof.
  revert s; induction p as [|a p IH]; intros s; simpl.
  - destruct s; split; eauto.
  - destruct s as [|b s].
    + split; [discriminate | intros [rest H]; discriminate].
    + simpl. destruct (ascii_dec a b) as [->|Hne].
      * split.
        -- intros H. apply IH in H. destruct H as [rest ->].
           now exists rest.
        -- intros [rest H]. apply IH. exists rest. now injection H.
      * split; [discriminate|].
        intros [rest H]. injection H as Hab _. now elim Hne.
Qed.

(** [contains] decides occurrence as a substring. *)
Lemma contains_iff_occurs (sub s : string) :
  contains sub s = true <-> exists before after, s = before ++ sub ++ after.
Proof.
  split.
  - induction s as [|c s IH]; cbn [contains].
    + intros H. apply prefix_iff_app in H. destruct H as [rest H].
      exists EmptyString, rest. exact H.
    + intros H. apply orb_true_iff in H. destruct H as [H|H].
      * apply prefix_iff_app in H. destruct H as [rest H].
        exists EmptyString, rest. exact H.
      * destruct (IH H) as (before & after & ->).
        exists (String c before), after. reflexivity.
  - intros (before & after & ->).
    induction before as [|c before IH].
    + assert (Hp : prefix sub (sub ++ after) = true)
        by (apply prefix_iff_app; eauto).
      change (EmptyString ++ sub ++ after) with (sub ++ after).
      destruct (sub ++ after); cbn [contains]; [exact Hp|].
      now rewrite Hp.
    + change (String c before ++ sub ++ after)
        with (String c (before ++ sub ++ after)).
      cbn [contains]. rewrite IH. apply orb_true_r.
Qed.

(** A cell without statement-carrying lines parses to the empty
    statement list and leaves every namespace as it was. *)
Lemma parse_cell_without_statements (src : string) :
  logical_lines src = [] -> parse_cell src = Some [].
Proof.
  unfold parse_cell. intros ->. reflexivity.
Qed.

Lemma exec_cell_without_statements (ns : namespace) (src : string) :
  logical_lines src = [] -> exec_cell ns src = Done ns.
Proof.
  intros H. unfold exec_cell.
  now rewrite (parse_cell_without_statements src H).
Qed.

Lemma run_cells_without_statements (srcs : list string) :
  Forall (fun src => logical_lines src = []) srcs ->
  forall ns, run_cells ns srcs = Done ns.
Proof.
  induction 1 as [|src srcs Hsrc _ IH]; intros ns; simpl.
  - reflexivity.
  - rewrite (exec_cell_without_statements ns src Hsrc). apply IH.
Qed.

(** A text that is one line beginning with the comment sign carries no
    statement. *)
Lemma comment_line_has_no_statement (l : string) :
  starts_with "#"%char l = true -> lines l = [l] -> logical_lines l = [].
Proof.
  intros Hhash Hline. unfold logical_lines. rewrite Hline. simpl.
  destruct l as [|c r]; [discriminate|].
  unfold starts_with in Hhash. apply Ascii.eqb_eq in Hhash. subst c.
  reflexivity.
Qed.

Lemma single_piece_text (l : string) :
  String.concat EmptyString [l] = l.
Proof. reflexivity. Qed.

Lemma single_comment_line_no_statement (c : Notebook.cell) :
  Content.single_comment_line c ->
  logical_lines (Notebook.text_of c) = [].
Proof.
  unfold Content.single_comment_line, Notebook.text_of.
  destruct (Notebook.source_of c) as [|l [|l' rest]]; try contradiction.
  intros [Hhash Hline]. rewrite single_piece_text.
  now apply comment_line_has_no_statement.
Qed.

(** Running a notebook whose code cells are single comment lines leaves
    the namespace untouched. *)
Lemma run_comment_cells (nb : Notebook.notebook) :
  Forall Content.single_comment_line (Notebook.code_cells nb) ->
  forall ns, run_cells ns (Notebook.code_texts nb) = Done ns.
Proof.
  intros Hc. apply run_cells_without_statements.
  unfold Notebook.code_texts. apply Forall_map.
  eapply Forall_impl; [|exact Hc].
  intros c. apply single_comment_line_no_statement.
Qed.

End Facts.

(** ** The notebook [probleme_2.ipynb] *)

Module Probleme2.

Import Text Notebook Content.

Definition table_image : string := "figures/table_prob2_ENG.png".

Ltac load_notebook :=
  eexists; split; [vm_compute; reflexivity|].

Ltac by_evaluation :=
  vm_compute; repeat (split || constructor).

(** C1 (as stated, refuted): the labels of the four code cells are not
    "Instantiate your Hamiltonian", "Instantiate your QAOA circuit",
    "Hyperparameter optimization", "Result analysis". *)
Lemma code_cell_labels_differ_from_listed :
  option_map (fun nb => map label_of (code_cells nb)) loaded <>
  Some [ "Instantiate your Hamiltonian";
         "Instantiate your QAOA circuit";
         "Hyperparameter optimization";
         "Result analysis" ].
Proof.
  vm_compute. intros H. discriminate H.
Qed.

(** C1 (amended): the notebook has four code cells; each is a placeholder
    whose source is one comment line, and these lines are, in order,
    "# Instanciate your Hamiltonian", "# Instanciate your QAOA circuit",
    "# Hyperparameter optimisation" and
    "# Result analysis and identified solutions"; none carries a
    statement. *)
Theorem code_cell_placeholders :
  exists nb, loaded = Some nb /\
    map source_of (code_cells nb) =
      [ ["# Instanciate your Hamiltonian"];
        ["# Instanciate your QAOA circuit"];
        ["# Hyperparameter optimisation"];
        ["# Result analysis and identified solutions"] ] /\
    map label_of (code_cells nb) =
      [ "Instanciate your Hamiltonian";
        "Instanciate your QAOA circuit";
        "Hyperparameter optimisation";
        "Result analysis and identified solutions" ] /\
    map statements_of (code_cells nb) = [ []; []; []; [] ].
Proof.
  load_notebook. by_evaluation.
Qed.

(** C2: no cell of the notebook carries an executable Python statement:
    every code cell has no statement-carrying line and parses to the empty
    statement list, and the only other cell is markdown. *)
Theorem no_executable_statement :
  exists nb, loaded = Some nb /\
    executable_lines nb = [] /\
    Forall (fun c => Python.logical_lines (text_of c) = [] /\
                     Python.parse_cell (text_of c) = Some [])
           (code_cells nb) /\
    List.length (code_cells nb) + List.length (markdown_cells nb) =
      List.length (cells nb).
Proof.
  load_notebook. by_evaluation.
Qed.

(** C3: the repository's source is the single notebook file; its cell
    list is one markdown cell, the statement of the bus-partitioning
    problem, followed by four code cells, and the document has no other
    part than its cells, metadata and format version. *)
Theorem cell_list_shape :
  Source.repository_files = [Source.notebook_path] /\
  Json.keys Source.probleme_2 =
    ["cells"; "metadata"; "nbformat"; "nbformat_minor"] /\
  exists nb, loaded = Some nb /\
    map is_code (cells nb) = [false; true; true; true; true] /\
    map (fun c => hd EmptyString (lines (text_of c))) (markdown_cells nb) =
      ["# Problem 2 : Partitionning the Bus Fleet"].
Proof.
  split; [reflexivity|]. split; [reflexivity|].
  load_notebook. by_evaluation.
Qed.

(** C4: every code cell has a null execution_count and an empty outputs
    list: the notebook records no output for any cell. *)
Theorem no_cell_records_an_output :
  exists nb, loaded = Some nb /\
    Forall records_nothing (cells nb) /\
    map (fun c => match c with
                  | Code ec outs _ => Some (ec, outs)
                  | Markdown _ => None
                  end) (code_cells nb) =
      [ Some (None, []); Some (None, []); Some (None, []);
        Some (None, []) ].
Proof.
  load_notebook. by_evaluation.
Qed.

(** C5: the markdown cell describes the problem instance (5 buses, each on
    its own line; weights counting the edges each pair of lines has in
    common; 2 groups) and gives the weight table only by reference to an
    image: the markdown holds no table of its own and no code block, and
    no cell carries a statement that would build the instance. *)
Theorem problem_instance_is_only_described :
  exists nb, loaded = Some nb /\
    let md := markdown_text nb in
    contains "add 5 buses each serving a different line" md = true /\
    contains "organize the buses into 2 groups" md = true /\
    contains "the number of edges in common between each pair of bus lines"
             md = true /\
    contains "The following table summarizes the intersection weights" md
      = true /\
    references md = [table_image] /\
    contains "|" md = false /\
    contains "<table" md = false /\
    contains "```" md = false /\
    executable_lines nb = [].
Proof.
  load_notebook. by_evaluation.
Qed.

(** C6: the notebook refers to one thing outside itself, the image
    [figures/table_prob2_ENG.png], from an [img] element of the markdown
    cell; no cell names a URL, and no cell carries a statement that could
    define a command line, a protocol, a file format or stored state. *)
Theorem only_reference_is_the_table_image :
  exists nb, loaded = Some nb /\
    notebook_references nb = [table_image] /\
    map (fun c => references (text_of c)) (cells nb) =
      [ [table_image]; []; []; []; [] ] /\
    contains ("<img src=" ++ quoted table_image) (markdown_text nb) = true /\
    mentions_url nb = false /\
    executable_lines nb = [].
Proof.
  load_notebook. by_evaluation.
Qed.

(** C7: running the code cells in order completes without raising and
    leaves the namespace it started from, so from the empty namespace no
    name is defined: each of the four code cells is a single line that
    begins with the comment sign. *)
Theorem running_the_code_cells_is_a_no_op :
  exists nb, loaded = Some nb /\
    List.length (code_cells nb) = 4 /\
    Forall single_comment_line (code_cells nb) /\
    (forall ns, Python.run_cells ns (code_texts nb) = Python.Done ns) /\
    Python.defined_names (Python.run_cells [] (code_texts nb)) = [].
Proof.
  load_notebook.
  match goal with
  | |- _ /\ Forall _ ?cs /\ _ =>
      assert (Hc : Forall single_comment_line cs)
        by (vm_compute; repeat (split || constructor))
  end.
  pose proof (Facts.run_comment_cells _ Hc) as Hrun.
  split; [reflexivity|]. split; [exact Hc|]. split; [exact Hrun|].
  now rewrite Hrun.
Qed.

(** C8: the notebook's metadata names Python as the kernel's language and
    as the language of its cells, and the document is in notebook format
    4, minor version 2. *)
Theorem metadata_declares_python_and_format :
  exists nb, loaded = Some nb /\
    kernel_language nb = "python" /\
    language_name nb = "python" /\
    nbformat nb = 4%Z /\
    nbformat_minor nb = 2%Z.
Proof.
  load_notebook. by_evaluation.
Qed.

(** C9: the notebook is the only file of the repository's source, and the
    image the markdown cell refers to is not in it, neither under the path
    as written nor under that path resolved against the notebook's
    directory. *)
Theorem table_image_is_not_in_the_repository :
  Source.repository_files = [Source.notebook_path] /\
  resolve table_image = "side_quests/qaoa/figures/table_prob2_ENG.png" /\
  exists nb, loaded = Some nb /\
    notebook_references nb = [table_image] /\
    Forall (fun r => in_repository r = false /\
                     in_repository (resolve r) = false)
           (notebook_references nb).
Proof.
  split; [reflexivity|]. split; [reflexivity|].
  load_notebook. by_evaluation.
Qed.

End Probleme2.

(** ** General facts about lines, pieces and selections of cells *)

Module LayoutFacts.

Import Text Python Layout.

Lemma append_snoc (cur : string) (c : ascii) (r : string) :
  (cur ++ String c EmptyString) ++ r = cur ++ String c r.
Proof.
  induction cur as [|d cur IH]; simpl; [reflexivity|].
  now rewrite IH.
Qed.

(** Joining the pieces of a text gives the text back. *)
Lemma join_pieces_from (s cur : string) :
  join (pieces_from cur s) = cur ++ s.
Proof.
  revert cur; induction s as [|c r IH]; intros cur; cbn [pieces_from].
  - destruct cur; reflexivity.
  - destruct (Ascii.eqb c lf).
    + cbn [join]. rewrite IH. cbn [append]. apply append_snoc.
    + rewrite IH. apply append_snoc.
Qed.

Lemma join_split_keepends (s : string) : join (split_keepends s) = s.
Proof. apply (join_pieces_from s EmptyString). Qed.

(** Statement-carrying lines of two texts put one after the other, a line
    feed between them: those of the first, then those of the second. *)
Lemma filter_lines_from_app (p : string -> bool) (a b cur : string) :
  p EmptyString = false ->
  filter p (lines_from cur (a ++ String lf b)) =
  (filter p (lines_from cur a) ++ filter p (lines b))%list.
Proof.
  intros Hp. revert cur.
  induction a as [|c a IH]; intros cur.
  - cbn [append lines_from]. rewrite Ascii.eqb_refl.
    destruct cur as [|d cur].
    + cbn [filter]. now rewrite Hp.
    + cbn [filter]. now destruct (p (String d cur)).
  - cbn [append lines_from]. destruct (Ascii.eqb c lf).
    + cbn [filter]. rewrite IH. now destruct (p cur).
    + apply IH.
Qed.

Lemma logical_lines_app (a b : string) :
  logical_lines (a ++ nl ++ b) = (logical_lines a ++ logical_lines b)%list.
Proof.
  unfold logical_lines, lines.
  change (a ++ nl ++ b) with (a ++ String lf b).
  now apply filter_lines_from_app.
Qed.

Lemma drawn_from_In (pool srcs : list string) (s : string) :
  drawn_from pool srcs = true -> In s srcs -> In s pool.
Proof.
  unfold drawn_from. intros H Hin.
  rewrite forallb_forall in H. specialize (H s Hin).
  apply existsb_exists in H. destruct H as (t & Ht & Heq).
  apply String.eqb_eq in Heq. now subst t.
Qed.

Lemma drawn_from_statement_free (pool srcs : list string) :
  Forall (fun s => logical_lines s = []) pool ->
  drawn_from pool srcs = true ->
  Forall (fun s => logical_lines s = []) srcs.
Proof.
  intros Hpool Hsel. apply Forall_forall. intros s Hin.
  rewrite Forall_forall in Hpool. apply Hpool.
  now apply (drawn_from_In pool srcs).
Qed.

(** Texts without statement, merged into one with line feeds between them,
    make a text without statement. *)
Lemma merged_statement_free (srcs : list string) :
  Forall (fun s => logical_lines s = []) srcs ->
  logical_lines (String.concat nl srcs) = [].
Proof.
  induction 1 as [|s rest Hs Hrest IH]; [reflexivity|].
  destruct rest as [|t rest]; [exact Hs|].
  change (String.concat nl (s :: t :: rest))
    with (s ++ nl ++ String.concat nl (t :: rest)).
  now rewrite logical_lines_app, Hs, IH.
Qed.

Lemma placeholder_texts_statement_free :
  Forall (fun s => logical_lines s = []) placeholder_texts.
Proof.
  vm_compute. repeat constructor.
Qed.

End LayoutFacts.

(** ** Further properties of [probleme_2.ipynb] *)

Module Probleme2Layout.

Import Text Notebook Content Layout.

(** X1: code cells of the notebook, run in any order and any number of
    times from any namespace, complete without raising and give the
    namespace back unchanged. *)
Theorem any_order_of_code_cells_is_a_no_op
  (srcs : list string) (ns : Python.namespace) :
  drawn_from placeholder_texts srcs = true ->
  Python.run_cells ns srcs = Python.Done ns.
Proof.
  intros Hsel. apply Facts.run_cells_without_statements.
  apply (LayoutFacts.drawn_from_statement_free placeholder_texts srcs).
  - apply LayoutFacts.placeholder_texts_statement_free.
  - exact Hsel.
Qed.

Lemma any_order_of_code_cells_is_a_no_op_witness :
  drawn_from placeholder_texts
    [ "# Result analysis and identified solutions";
      "# Instanciate your Hamiltonian";
      "# Instanciate your Hamiltonian" ] = true /\
  Python.run_cells [("x", 1%Z)]
    [ "# Result analysis and identified solutions";
      "# Instanciate your Hamiltonian";
      "# Instanciate your Hamiltonian" ] = Python.Done [("x", 1%Z)].
Proof.
  split; [reflexivity|].
  apply any_order_of_code_cells_is_a_no_op. reflexivity.
Defined.

(** X2: code cells of the notebook merged into one cell, in any order and
    with line feeds between them, still carry no statement: the merged cell
    parses to the empty statement list and leaves any namespace as it
    was. *)
Theorem merged_code_cells_are_a_no_op
  (srcs : list string) (ns : Python.namespace) :
  drawn_from placeholder_texts srcs = true ->
  Python.logical_lines (String.concat nl srcs) = [] /\
  Python.parse_cell (String.concat nl srcs) = Some [] /\
  Python.exec_cell ns (String.concat nl srcs) = Python.Done ns.
Proof.
  intros Hsel.
  assert (H : Python.logical_lines (String.concat nl srcs) = []).
  { apply LayoutFacts.merged_statement_free.
    apply (LayoutFacts.drawn_from_statement_free placeholder_texts srcs).
    - apply LayoutFacts.placeholder_texts_statement_free.
    - exact Hsel. }
  split; [exact H|]. split.
  - now apply Facts.parse_cell_without_statements.
  - now apply Facts.exec_cell_without_statements.
Qed.

Lemma merged_code_cells_are_a_no_op_witness :
  drawn_from placeholder_texts
    [ "# Hyperparameter optimisation"; "# Instanciate your QAOA circuit" ]
    = true /\
  Python.exec_cell [("y", 7%Z)]
    (String.concat nl
       [ "# Hyperparameter optimisation"; "# Instanciate your QAOA circuit" ])
    = Python.Done [("y", 7%Z)].
Proof.
  split; [reflexivity|].
  apply (merged_code_cells_are_a_no_op
           [ "# Hyperparameter optimisation";
             "# Instanciate your QAOA circuit" ]).
  reflexivity.
Defined.

(** X3: in every cell the source array is the line split of the cell's
    text: each piece but the last ends with its one line feed, the last
    piece has none, and splitting the joined text gives the array back. *)
Theorem source_arrays_are_line_splits :
  exists nb, loaded = Some nb /\
    Forall (fun c => split_keepends (text_of c) = source_of c) (cells nb) /\
    Forall (fun c => contains nl (last (source_of c) EmptyString) = false)
           (cells nb) /\
    map (fun c => List.length (source_of c)) (cells nb) = [30; 1; 1; 1; 1].
Proof.
  Probleme2.load_notebook. Probleme2.by_evaluation.
Qed.

(** X4: every cell object has the members of its kind and no other
    (cell_type, metadata, source; for a code cell also execution_count and
    outputs), so no cell has an id, tags or attachments; the metadata of
    every cell is the empty object; and reading keeps every cell. *)
Theorem cell_objects_have_only_their_members :
  map Json.keys (raw_cells Source.probleme_2) =
    [ ["cell_type"; "metadata"; "source"];
      ["cell_type"; "execution_count"; "metadata"; "outputs"; "source"];
      ["cell_type"; "execution_count"; "metadata"; "outputs"; "source"];
      ["cell_type"; "execution_count"; "metadata"; "outputs"; "source"];
      ["cell_type"; "execution_count"; "metadata"; "outputs"; "source"] ] /\
  Forall (fun c => Json.field "metadata" c = Some (JObj []))
         (raw_cells Source.probleme_2) /\
  option_map (fun nb => List.length (cells nb)) loaded =
    Some (List.length (raw_cells Source.probleme_2)).
Proof.
  Probleme2.by_evaluation.
Qed.

(** X5: the notebook's metadata is coherent about the Python it was saved
    under: the kernel is named python3 (shown as test1_codefest2025_venv),
    the language version is 3.12.2, whose major number 3 is the version of
    the codemirror mode and the digit of the kernel and lexer names, and
    the file extension, MIME type and exporter are those of Python. *)
Theorem metadata_is_coherent_about_python :
  read_string_at ["metadata"; "kernelspec"; "name"] Source.probleme_2
    = Some "python3" /\
  read_string_at ["metadata"; "kernelspec"; "display_name"]
    Source.probleme_2 = Some "test1_codefest2025_venv" /\
  read_string_at ["metadata"; "language_info"; "version"] Source.probleme_2
    = Some "3.12.2" /\
  option_map major_version
    (read_string_at ["metadata"; "language_info"; "version"]
       Source.probleme_2) = Some (Some 3%Z) /\
  at_path ["metadata"; "language_info"; "codemirror_mode"; "version"]
    Source.probleme_2 = Some (JNum 3) /\
  read_string_at ["metadata"; "language_info"; "codemirror_mode"; "name"]
    Source.probleme_2 = Some "ipython" /\
  read_string_at ["metadata"; "language_info"; "pygments_lexer"]
    Source.probleme_2 = Some "ipython3" /\
  read_string_at ["metadata"; "language_info"; "file_extension"]
    Source.probleme_2 = Some ".py" /\
  read_string_at ["metadata"; "language_info"; "mimetype"] Source.probleme_2
    = Some "text/x-python" /\
  read_string_at ["metadata"; "language_info"; "nbconvert_exporter"]
    Source.probleme_2 = Some "python" /\
  Json.keys Source.notebook_metadata = ["kernelspec"; "language_info"].
Proof.
  Probleme2.by_evaluation.
Qed.

(** X6: no object of the document, at any depth, writes a member name
    twice, so looking a member up does not depend on which occurrence a
    JSON reader keeps. *)
Theorem document_has_unique_member_names :
  unique_keys Source.probleme_2 = true /\
  Forall (fun c => unique_keys c = true) (raw_cells Source.probleme_2) /\
  unique_keys Source.notebook_metadata = true.
Proof.
  Probleme2.by_evaluation.
Qed.

(** X7: the markdown cell has six headings (levels 1, 2, 3, 2, 3, 4); its
    section "How : You need to" lists three tasks and "Evaluation : You
    must" two; and the first three code cells name, in the same order, the
    subjects of the three tasks (Hamiltonian, QAOA circuit,
    hyperparameters), the fourth the solutions asked for by the
    evaluation. *)
Theorem placeholders_follow_the_task_list :
  exists nb, loaded = Some nb /\
    headings (markdown_text nb) =
      [ (1, "Problem 2 : Partitionning the Bus Fleet");
        (2, "Problem Statement");
        (3, "Supplementary Information");
        (2, "Goal");
        (3, "How : You need to");
        (4, "Evaluation : You must") ] /\
    items_of_section "How : You need to" (markdown_text nb) =
      [ "encode the problem into a `SparsePauliOp` Hamiltonian";
        "optimize the parameters of your QAOA circuit";
        "select a good set of hyperparameters (number of layers, optimizer, ...)" ] /\
    items_of_section "Evaluation : You must" (markdown_text nb) =
      [ "Show a mentor that you were able to run your code correctly (showing cell outputs is sufficient)";
        "Show the optimal solutions you identified for this problem" ] /\
    shared_terms ["Hamiltonian"; "QAOA circuit"; "hyperparameter"]
      (items_of_section "How : You need to" (markdown_text nb))
      (map label_of (code_cells nb)) = [true; true; true] /\
    shared_terms ["solutions"]
      (skipn 1 (items_of_section "Evaluation : You must" (markdown_text nb)))
      (skipn 3 (map label_of (code_cells nb))) = [true].
Proof.
  Probleme2.load_notebook. Probleme2.by_evaluation.
Qed.

End Probleme2Layout.
